(** * airflow/decorators/python.py: the python task decorator

    A shallow embedding of the module: the adapter class
    [_PythonDecoratedOperator] with its three class-level declarations and
    its [__init__], the mixin [PythonDecoratorMixin] with [python] and
    [__call__], and the free function [python_task].

    The module's collaborators ([DecoratedOperator] / [PythonOperator]
    behind [super().__init__], and [task_decorator_factory]) are imported
    from other modules.  They are kept abstract: a function of this module is
    a program tree whose nodes are the calls it makes to them, and the tree
    is run against an arbitrary handler for those calls. *)

From stdpp Require Import gmap strings list fin_maps.

Set Default Proof Using "Type".
Set Warnings "-register-all,-clear-no-such-hyp".
Open Scope string_scope.

(** ** Python values *)

(** References to objects that carry an attribute dictionary. *)
Inductive ref :=
| RClass (name : string)     (* a class object *)
| RFunc (name : string)      (* a function object *)
| RObj (addr : nat).         (* an instance *)

Global Instance ref_eq_dec : EqDecision ref.
Proof. solve_decision. Defined.

Definition ref_encode (r : ref) : string + string + nat :=
  match r with
  | RClass n => inl (inl n)
  | RFunc n => inl (inr n)
  | RObj a => inr a
  end.

Definition ref_decode (x : string + string + nat) : ref :=
  match x with
  | inl (inl n) => RClass n
  | inl (inr n) => RFunc n
  | inr a => RObj a
  end.

Global Instance ref_countable : Countable ref.
Proof. apply (inj_countable' ref_encode ref_decode). by intros []. Defined.

(** The values the module passes around.  A dict is keyed by strings: the
    only dicts the module builds or reads are keyword bags. *)
Inductive pyval :=
| PNone
| PBool (b : bool)
| PInt (z : Z)
| PStr (s : string)
| PTuple (xs : list pyval)
| PList (xs : list pyval)
| PDict (d : gmap string pyval)
| PRef (r : ref).

(** A keyword bag: what [**kwargs] collects and what [**kwargs] unpacks. *)
Abbreviation bag := (gmap string pyval).

(** Python's truth value of an object, [bool(v)]. *)
Definition truthy (v : pyval) : bool :=
  match v with
  | PNone => false
  | PBool b => b
  | PInt z => negb (Z.eqb z 0)
  | PStr s => negb (String.eqb s "")
  | PTuple xs | PList xs => negb (Nat.eqb (length xs) 0)
  | PDict d => negb (Nat.eqb (size d) 0)
  | PRef _ => true
  end.

Definition has_key (d : bag) (k : string) : bool :=
  match d !! k with Some _ => true | None => false end.

(** ** Exceptions *)

Inductive exc :=
| KeyError (key : string)    (* [d[key]] on a dict that has no [key] *)
| TypeError                  (* a call that does not fit the callee's signature *)
| Other (name : string).     (* whatever a collaborator raises *)

(** ** Programs: the calls a function makes to the outside *)

Inductive target :=
| SuperInit (self : pyval)   (* [super().__init__], bound to [self] *)
| Global (name : string)     (* a name imported by the module *)
| Value (f : pyval).         (* a callable held as a value *)

Record call := Call { callee : target; posargs : list pyval; kwargs : bag }.

Inductive prog (A : Type) : Type :=
| Ret (a : A)
| Raise (e : exc)
| Invoke (c : call) (k : pyval → prog A)
| SetAttr (obj : ref) (attr : string) (v : pyval) (k : prog A).

Arguments Ret {A} a.
Arguments Raise {A} e.
Arguments Invoke {A} c k.
Arguments SetAttr {A} obj attr v k.

Fixpoint prog_bind {A B} (p : prog A) (f : A → prog B) : prog B :=
  match p with
  | Ret a => f a
  | Raise e => Raise e
  | Invoke c k => Invoke c (λ v, prog_bind (k v) f)
  | SetAttr obj attr v k => SetAttr obj attr v (prog_bind k f)
  end.

Global Instance prog_ret : MRet prog := @Ret.
Global Instance prog_mbind : MBind prog := λ A B f p, prog_bind p f.

(** [d[key]] *)
Definition getitem (d : bag) (key : string) : prog pyval :=
  match d !! key with
  | Some v => Ret v
  | None => Raise (KeyError key)
  end.

(** A call [f(k1=v1, ..., kn=vn, **star)].  The explicit keywords and the
    unpacked bag must not share a name: Python raises [TypeError] (multiple
    values for a keyword argument) before the callee is entered. *)
Definition call_kw (f : target) (explicit : list (string * pyval)) (star : bag)
  : prog pyval :=
  if existsb (λ kv, has_key star kv.1) explicit
  then Raise TypeError
  else Invoke {| callee := f; posargs := []; kwargs := list_to_map explicit ∪ star |} Ret.

(** ** Binding a call to a signature *)

(** One parameter [name=None] of a signature that ends in [**kwargs]:
    [arg] is the positional argument in its position, if any. *)
Definition bind_param (name : string) (arg : option pyval) (kws : bag)
  : prog (pyval * bag) :=
  match arg, kws !! name with
  | Some _, Some _ => Raise TypeError          (* multiple values for [name] *)
  | Some a, None => Ret (a, kws)
  | None, o => Ret (default PNone o, delete name kws)
  end.

(** The signature shared by the three entry points,
    [(python_callable=None, multiple_outputs=None, **kwargs)], applied to a
    call with positional arguments [args] and keywords [kws]. *)
Definition bind_signature (args : list pyval) (kws : bag)
  : prog (pyval * pyval * bag) :=
  match args with
  | _ :: _ :: _ :: _ => Raise TypeError        (* at most two positionals *)
  | _ =>
      '(python_callable, kws1) ← bind_param "python_callable" (args !! 0%nat) kws;
      '(multiple_outputs, kwargs) ← bind_param "multiple_outputs" (args !! 1%nat) kws1;
      mret (python_callable, multiple_outputs, kwargs)
  end.

(** The same signature behind a leading [self], which the bound method
    supplies positionally. *)
Definition bind_method (self : pyval) (args : list pyval) (kws : bag)
  : prog (pyval * pyval * bag) :=
  '(_, kws0) ← bind_param "self" (Some self) kws;
  bind_signature args kws0.

(** ** The module *)

Definition task_decorator_factory : target := Global "task_decorator_factory".

Module _PythonDecoratedOperator.

Definition name : string := "_PythonDecoratedOperator".

(** python.py:42 *)
Definition template_fields : list string := ["op_args"; "op_kwargs"].

(** python.py:43 *)
Definition template_fields_renderers : gmap string string :=
  {[ "op_args" := "py"; "op_kwargs" := "py" ]}.

(** python.py:47 *)
Definition shallow_copy_attrs : list string := ["python_callable"].

(** python.py:49-59, called on the node [self] with the keywords [kws] and
    no other positional argument (the signature [(self, **kwargs)] has room
    for none).  The call is bound first: [self] is given positionally, so a
    keyword of that name is a second value for it and Python raises
    [TypeError] before the body runs.  In the body the dict display
    evaluates its three subscriptions in order; the result of
    [super().__init__] is dropped and [__init__] returns [None]. *)
Definition __init__ (self : pyval) (kws : bag) : prog pyval :=
  '(_, kwargs) ← bind_param "self" (Some self) kws;
  python_callable ← getitem kwargs "python_callable";
  op_args ← getitem kwargs "op_args";
  op_kwargs ← getitem kwargs "op_kwargs";
  let kwargs_to_upstream :=
    PDict {[ "python_callable" := python_callable;
             "op_args" := op_args;
             "op_kwargs" := op_kwargs ]} in
  _ ← call_kw (SuperInit self) [("kwargs_to_upstream", kwargs_to_upstream)] kwargs;
  mret PNone.

(** The names the class body binds in the class object (the implicit
    entries, such as [__doc__] and [__module__], are left out). *)
Definition class_dict : bag :=
  {[ "template_fields" := PTuple (PStr <$> template_fields);
     "template_fields_renderers" := PDict (PStr <$> template_fields_renderers);
     "shallow_copy_attrs" := PTuple (PStr <$> shallow_copy_attrs);
     "__init__" := PRef (RFunc "_PythonDecoratedOperator.__init__") ]}.

End _PythonDecoratedOperator.

Definition decorated_operator_class : pyval :=
  PRef (RClass _PythonDecoratedOperator.name).

Module PythonDecoratorMixin.

(** python.py:78-99 *)
Definition python (self : pyval) (args : list pyval) (kws : bag) : prog pyval :=
  '(python_callable, multiple_outputs, kwargs) ← bind_method self args kws;
  call_kw task_decorator_factory
    [("python_callable", python_callable);
     ("multiple_outputs", multiple_outputs);
     ("decorated_operator_class", decorated_operator_class)]
    kwargs.

(** python.py:73-76.  [self.python] is the method above: the mixin is taken
    as it is, without a subclass that overrides [python]. *)
Definition __call__ (self : pyval) (args : list pyval) (kws : bag) : prog pyval :=
  '(python_callable, multiple_outputs, kwargs) ← bind_method self args kws;
  python self [python_callable; multiple_outputs] kwargs.

End PythonDecoratorMixin.

(** python.py:102-123 *)
Definition python_task (args : list pyval) (kws : bag) : prog pyval :=
  '(python_callable, multiple_outputs, kwargs) ← bind_signature args kws;
  call_kw task_decorator_factory
    [("python_callable", python_callable);
     ("multiple_outputs", multiple_outputs);
     ("decorated_operator_class", decorated_operator_class)]
    kwargs.

(** ** Running a program *)

(** The state the programs run in: the attribute dictionaries of classes
    and instances, and whatever state [ext] the collaborators keep. *)
Record world (X : Type) := World { heap : gmap ref bag; ext : X }.

Arguments World {X} heap ext.
Arguments heap {X} w.
Arguments ext {X} w.

Inductive event :=
| ECall (c : call)
| EStore (obj : ref) (attr : string) (v : pyval).

(** [obj.attr = v] *)
Definition store {X} (obj : ref) (attr : string) (v : pyval) (w : world X) : world X :=
  World (<[obj := <[attr := v]> (default ∅ (heap w !! obj))]> (heap w)) (ext w).

(** [node.attr] for a node of the adapter type: the instance dictionary
    first, then the dictionary of [_PythonDecoratedOperator], the first class
    of the node's resolution order. *)
Definition getattr (h : gmap ref bag) (node : ref) (attr : string) : option pyval :=
  match h !! node ≫= (.!! attr) with
  | Some v => Some v
  | None => h !! RClass _PythonDecoratedOperator.name ≫= (.!! attr)
  end.

Section Run.
Context {X : Type}.

(** How the collaborators answer a call: a new state and either an
    exception or a value. *)
Variable handle : call → world X → world X * (exc + pyval).

(** A run yields the final state, the events of the program itself in
    order (not those inside a collaborator), and the outcome.  An
    exception of a collaborator propagates. *)
Fixpoint run {A} (p : prog A) (w : world X) : world X * list event * (exc + A) :=
  match p with
  | Ret a => (w, [], inr a)
  | Raise e => (w, [], inl e)
  | Invoke c k =>
      let '(w1, r) := handle c w in
      match r with
      | inl e => (w1, [ECall c], inl e)
      | inr v => let '(w2, tr, r2) := run (k v) w1 in (w2, ECall c :: tr, r2)
      end
  | SetAttr obj attr v k =>
      let '(w2, tr, r) := run k (store obj attr v w) in
      (w2, EStore obj attr v :: tr, r)
  end.

Definition final {A} (p : prog A) (w : world X) : world X := (run p w).1.1.
Definition trace {A} (p : prog A) (w : world X) : list event := (run p w).1.2.
Definition outcome {A} (p : prog A) (w : world X) : exc + A := (run p w).2.

(** The operations of the module, as a client issues them. *)
Inductive op :=
| Construct (self : pyval) (kwargs : bag)
| PythonTask (args : list pyval) (kws : bag)
| MixinPython (self : pyval) (args : list pyval) (kws : bag)
| MixinCall (self : pyval) (args : list pyval) (kws : bag).

Definition op_prog (o : op) : prog pyval :=
  match o with
  | Construct self kwargs => _PythonDecoratedOperator.__init__ self kwargs
  | PythonTask args kws => python_task args kws
  | MixinPython self args kws => PythonDecoratorMixin.python self args kws
  | MixinCall self args kws => PythonDecoratorMixin.__call__ self args kws
  end.

(** A client session: one operation after the other, each from the state
    the previous one left, whatever its outcome. *)
Fixpoint run_ops (os : list op) (w : world X) : world X :=
  match os with
  | [] => w
  | o :: os' => run_ops os' (final (op_prog o) w)
  end.

End Run.

(** The state right after the class statement. *)
Definition initial_heap : gmap ref bag :=
  {[ RClass _PythonDecoratedOperator.name := _PythonDecoratedOperator.class_dict ]}.

Definition declaration_names : list string :=
  ["template_fields"; "template_fields_renderers"; "shallow_copy_attrs"].

(** The three declarations are where the class statement put them, and no
    instance dictionary shadows them. *)
Definition declarations_intact (h : gmap ref bag) : Prop :=
  ∀ attr, attr ∈ declaration_names →
    h !! RClass _PythonDecoratedOperator.name ≫= (.!! attr)
      = _PythonDecoratedOperator.class_dict !! attr
    ∧ ∀ addr, h !! RObj addr ≫= (.!! attr) = None.

(** A program without attribute assignments. *)
Inductive store_free {A} : prog A → Prop :=
| sf_ret a : store_free (Ret a)
| sf_raise e : store_free (Raise e)
| sf_invoke c k : (∀ v, store_free (k v)) → store_free (Invoke c k).

(** The keys [__init__] reads from its keyword bag. *)
Definition required_keys : list string := ["python_callable"; "op_args"; "op_kwargs"].

(** What the stand-in base constructor leaves on the node: the captured
    values of the bundle [up], under their own names. *)
Definition publish (up : bag) (attrs : bag) : bag :=
  foldr (λ n acc, match up !! n with Some v => <[n := v]> acc | None => acc end)
        attrs required_keys.

(** A stand-in for the collaborators, for running the module on concrete
    inputs: the base constructor publishes the captured values on the node
    and returns [None]; every other call returns [None]; the state [ext]
    counts the calls. *)
Definition sample_handle (c : call) (w : world nat) : world nat * (exc + pyval) :=
  match callee c, kwargs c !! "kwargs_to_upstream" with
  | SuperInit (PRef (RObj addr)), Some (PDict up) =>
      (World (<[RObj addr := publish up (default ∅ (heap w !! RObj addr))]> (heap w))
             (S (ext w)),
       inr PNone)
  | _, _ => (World (heap w) (S (ext w)), inr PNone)
  end.

Definition sample_world : world nat := World initial_heap 0.

(** Concrete inputs used below. *)
Definition add : pyval := PRef (RFunc "add").
Definition node0 : pyval := PRef (RObj 0).
Definition mixin0 : pyval := PRef (RObj 1).

(** ** Vocabulary for the statements *)

(** The upstream bundle [__init__] assembles. *)
Definition upstream (python_callable op_args op_kwargs : pyval) : pyval :=
  PDict {[ "python_callable" := python_callable;
           "op_args" := op_args;
           "op_kwargs" := op_kwargs ]}.

(** The call [super().__init__(kwargs_to_upstream=up, **kwargs)]. *)
Definition base_call (self : pyval) (up : pyval) (kwargs : bag) : call :=
  Call (SuperInit self) [] (<["kwargs_to_upstream" := up]> kwargs).

(** The value a call with [args] and [kws] gives to the parameter [name],
    in position [pos] of the signature: the positional argument, else the
    keyword, else the declared default [None]. *)
Definition supplied (name : string) (pos : nat) (args : list pyval) (kws : bag) : pyval :=
  match args !! pos with
  | Some a => a
  | None => default PNone (kws !! name)
  end.

(** The call [task_decorator_factory(python_callable=c, multiple_outputs=m,
    decorated_operator_class=_PythonDecoratedOperator, **extra)]. *)
Definition factory_call (c m : pyval) (extra : bag) : call :=
  Call task_decorator_factory []
    (list_to_map [("python_callable", c);
                  ("multiple_outputs", m);
                  ("decorated_operator_class", decorated_operator_class)] ∪ extra).

(** The three entry points on one call. *)
Definition entry_points (self : pyval) (args : list pyval) (kws : bag)
  : list (prog pyval) :=
  [python_task args kws;
   PythonDecoratorMixin.python self args kws;
   PythonDecoratorMixin.__call__ self args kws].

(** A bag that uses none of [names]. *)
Definition free_of (names : list string) (kws : bag) : Prop :=
  ∀ n, n ∈ names → kws !! n = None.

(** Concrete keyword bags. *)
Definition bag_without_op_args : bag :=
  {[ "python_callable" := add; "op_kwargs" := PDict ∅; "retries" := PInt 3 ]}.

Definition bag_self : bag :=
  {[ "self" := PInt 1; "op_kwargs" := PDict ∅ ]}.

Definition bag_add_self : bag :=
  {[ "self" := PInt 1;
     "python_callable" := add;
     "op_args" := PTuple [PInt 2; PInt 3];
     "op_kwargs" := PDict ∅ ]}.

Definition bag_reserved : bag :=
  {[ "python_callable" := add;
     "op_args" := PTuple [PInt 2; PInt 3];
     "op_kwargs" := PDict ∅;
     "kwargs_to_upstream" := PNone ]}.

Definition bag_add : bag :=
  {[ "python_callable" := add;
     "op_args" := PTuple [PInt 2; PInt 3];
     "op_kwargs" := PDict ∅;
     "task_id" := PStr "add" ]}.

Definition session : list op :=
  [Construct node0 bag_add;
   PythonTask [add] (<["multiple_outputs" := PBool true]> ∅);
   Construct (PRef (RObj 2)) bag_without_op_args;
   MixinCall mixin0 [add; PBool true] ∅;
   MixinPython mixin0 [] ∅;
   Construct node0 bag_reserved].

(** The calls an entry point binds: at most two positional arguments, and
    neither parameter given both positionally and by keyword. *)
Definition binds (args : list pyval) (kws : bag) : Prop :=
  (length args ≤ 2)%nat ∧
  (is_Some (args !! 0%nat) → kws !! "python_callable" = None) ∧
  (is_Some (args !! 1%nat) → kws !! "multiple_outputs" = None).

Definition call_flag_by_keyword : bag :=
  {[ "multiple_outputs" := PBool true; "retries" := PInt 3 ]}.

Definition call_with_descriptor : bag :=
  {[ "python_callable" := add;
     "multiple_outputs" := PBool true;
     "decorated_operator_class" := PRef (RClass "BashOperator") ]}.

Definition extra_retries : bag := {[ "retries" := PInt 3 ]}.

Definition extra_descriptor : bag :=
  {[ "decorated_operator_class" := PRef (RClass "BashOperator") ]}.

Definition extra_self : bag := {[ "self" := PInt 1 ]}.

(** What a program that makes the call [c] and returns its result yields:
    the collaborator's state and answer, and the call as the trace. *)
Definition handle_result {X} (handle : call → world X → world X * (exc + pyval))
    (w : world X) (c : call) : world X * list event * (exc + pyval) :=
  ((handle c w).1, [ECall c], (handle c w).2).

Definition bag_unchecked : bag :=
  {[ "python_callable" := PNone;
     "op_args" := PInt 7;
     "op_kwargs" := PStr "x";
     "kwargs_to_upstream" := PBool false ]}.

Definition bag_odd_values : bag :=
  {[ "python_callable" := PNone; "op_args" := PInt 7; "op_kwargs" := PStr "x" ]}.

Definition call_by_keyword : bag :=
  {[ "python_callable" := add; "multiple_outputs" := PBool true; "retries" := PInt 3 ]}.

(** Collaborators that refuse every call. *)
Definition raising_handle (c : call) (w : world nat) : world nat * (exc + pyval) :=
  (World (heap w) (S (ext w)), inl (Other "AirflowException")).

(** Collaborators that answer every call with the number of calls so far. *)
Definition counting_handle (c : call) (w : world nat) : world nat * (exc + pyval) :=
  (World (heap w) (S (ext w)), inr (PInt (Z.of_nat (ext w)))).

(** * Properties *)

(** ** Running one call *)

Section RunFacts.
Context {X : Type} (handle : call → world X → world X * (exc + pyval)).

(** A program that makes one call and returns (a function of) its result
    leaves exactly that call in the trace, whatever the collaborator
    answers. *)
Lemma trace_one_call {A} c (f : pyval → A) w :
  trace handle (Invoke c (λ v, Ret (f v))) w = [ECall c].
Proof.
  unfold trace. simpl. destruct (handle c w) as [w1 [e|v]]; reflexivity.
Qed.

Lemma run_call_ret c w :
  run handle (Invoke c Ret) w = ((handle c w).1, [ECall c], (handle c w).2).
Proof. simpl. destruct (handle c w) as [w1 [e|v]]; reflexivity. Qed.

Lemma trace_call_ret c w : trace handle (Invoke c Ret) w = [ECall c].
Proof. unfold trace. by rewrite run_call_ret. Qed.

End RunFacts.

(** ** The shape of [__init__] on every keyword bag *)

Lemma init_shape (self : pyval) (kwargs : bag) :
  _PythonDecoratedOperator.__init__ self kwargs =
    match kwargs !! "self" with
    | Some _ => Raise TypeError
    | None =>
        match kwargs !! "python_callable", kwargs !! "op_args", kwargs !! "op_kwargs" with
        | None, _, _ => Raise (KeyError "python_callable")
        | Some _, None, _ => Raise (KeyError "op_args")
        | Some _, Some _, None => Raise (KeyError "op_kwargs")
        | Some c, Some a, Some k =>
            if has_key kwargs "kwargs_to_upstream" then Raise TypeError
            else Invoke (base_call self (upstream c a k) kwargs) (λ _, Ret PNone)
        end
    end.
Proof.
  unfold _PythonDecoratedOperator.__init__, bind_param, getitem, call_kw,
    base_call, upstream.
  destruct (kwargs !! "self") as [s|]; [reflexivity|]. cbn.
  destruct (kwargs !! "python_callable") as [c|]; [|reflexivity].
  destruct (kwargs !! "op_args") as [a|]; [|reflexivity].
  destruct (kwargs !! "op_kwargs") as [k|]; [|reflexivity].
  cbn. destruct (has_key kwargs "kwargs_to_upstream"); [reflexivity|].
  cbn. f_equal. f_equal.
  rewrite insert_empty. symmetry. apply insert_union_singleton_l.
Qed.

(** Membership of a listed element. *)
Ltac in_list :=
  repeat first [ apply list_elem_of_here | apply list_elem_of_further ].

Lemma required_keys_cases (key : string) :
  key ∈ required_keys →
  key = "python_callable" ∨ key = "op_args" ∨ key = "op_kwargs".
Proof. unfold required_keys. rewrite !elem_of_cons, elem_of_nil. tauto. Qed.

Lemma has_key_true (d : bag) (k : string) : has_key d k = true ↔ is_Some (d !! k).
Proof.
  unfold has_key, is_Some. destruct (d !! k); naive_solver.
Qed.

Lemma has_key_false (d : bag) (k : string) : has_key d k = false ↔ d !! k = None.
Proof. unfold has_key. by destruct (d !! k). Qed.

(** ** Construction with a required key missing *)

(** A keyword named self is refused before the body runs, whatever else
    the bag has or lacks. *)
Lemma init_rejects_self (self : pyval) (kwargs : bag) :
  is_Some (kwargs !! "self") →
  _PythonDecoratedOperator.__init__ self kwargs = Raise TypeError.
Proof. intros [v Hv]. by rewrite init_shape, Hv. Qed.

(** The bag lacks python_callable (and op_args), and construction raises
    [TypeError], not [KeyError]: its key self is a second value for the
    receiver, and the call is refused before the body reads any key. *)
Lemma init_self_key_counterexample :
  bag_self !! "python_callable" = None ∧
  bag_self !! "op_args" = None ∧
  _PythonDecoratedOperator.__init__ node0 bag_self = Raise TypeError ∧
  run sample_handle (_PythonDecoratedOperator.__init__ node0 bag_self) sample_world
    = (sample_world, [], inl TypeError).
Proof. repeat split. Qed.

(** C1 (amended). For each of the three keys python_callable, op_args,
    op_kwargs: on a keyword bag that has no key self and lacks the key,
    [__init__] raises Python's [KeyError] (the error kind the specification
    calls MissingArgumentError) for a required key the bag lacks, and
    [super().__init__] is not invoked: the run has an empty trace and leaves
    the state as it was. *)
Theorem init_missing_key_raises {X} (handle : call → world X → world X * (exc + pyval))
    (w : world X) (self : pyval) (kwargs : bag) (key : string) :
  key ∈ required_keys →
  kwargs !! key = None →
  kwargs !! "self" = None →
  ∃ missing,
    missing ∈ required_keys ∧ kwargs !! missing = None ∧
    _PythonDecoratedOperator.__init__ self kwargs = Raise (KeyError missing) ∧
    run handle (_PythonDecoratedOperator.__init__ self kwargs) w
      = (w, [], inl (KeyError missing)).
Proof.
  intros Hkey Hnone Hself. rewrite init_shape, Hself.
  destruct (kwargs !! "python_callable") as [c|] eqn:Hc.
  2:{ exists "python_callable". split; [in_list | done]. }
  destruct (kwargs !! "op_args") as [a|] eqn:Ha.
  2:{ exists "op_args". split; [in_list | done]. }
  destruct (kwargs !! "op_kwargs") as [k|] eqn:Hk.
  2:{ exists "op_kwargs". split; [in_list | done]. }
  apply required_keys_cases in Hkey as [-> | [-> | ->]]; congruence.
Qed.

Lemma init_missing_key_raises_witness :
  ∃ missing,
    missing ∈ required_keys ∧ bag_without_op_args !! missing = None ∧
    _PythonDecoratedOperator.__init__ node0 bag_without_op_args = Raise (KeyError missing) ∧
    run sample_handle (_PythonDecoratedOperator.__init__ node0 bag_without_op_args) sample_world
      = (sample_world, [], inl (KeyError missing)).
Proof.
  apply (init_missing_key_raises sample_handle sample_world node0 bag_without_op_args "op_args").
  - in_list.
  - reflexivity.
  - reflexivity.
Defined.

(** The key reported is the first one, in the order the source reads them,
    that the bag lacks. *)
Lemma init_reports_first_missing (self : pyval) (kwargs : bag) (missing : string) :
  _PythonDecoratedOperator.__init__ self kwargs = Raise (KeyError missing) →
  ∃ before after,
    required_keys = (before ++ missing :: after)%list ∧
    kwargs !! missing = None ∧
    Forall (λ key, is_Some (kwargs !! key)) before.
Proof.
  rewrite init_shape.
  destruct (kwargs !! "self") as [s|] eqn:Hs; [done|].
  destruct (kwargs !! "python_callable") as [c|] eqn:Hc.
  2:{ intros [= <-]. exists [], ["op_args"; "op_kwargs"]. by repeat split. }
  destruct (kwargs !! "op_args") as [a|] eqn:Ha.
  2:{ intros [= <-]. exists ["python_callable"], ["op_kwargs"].
      repeat split; [done|]. repeat constructor. by rewrite Hc. }
  destruct (kwargs !! "op_kwargs") as [k|] eqn:Hk.
  2:{ intros [= <-]. exists ["python_callable"; "op_args"], [].
      repeat split; [done|]. repeat constructor; [by rewrite Hc | by rewrite Ha]. }
  by destruct (has_key kwargs "kwargs_to_upstream").
Qed.

(** ** Construction with the three required keys present *)

Lemma upstream_lookup (c a k : pyval) (key : string) (v : pyval) (kwargs : bag) :
  kwargs !! "python_callable" = Some c →
  kwargs !! "op_args" = Some a →
  kwargs !! "op_kwargs" = Some k →
  ({[ "python_callable" := c; "op_args" := a; "op_kwargs" := k ]} : bag) !! key = Some v
    ↔ key ∈ required_keys ∧ kwargs !! key = Some v.
Proof.
  intros Hc Ha Hk. rewrite !lookup_insert_Some, lookup_singleton_Some.
  split.
  - intros [[<- <-] | [? [[<- <-] | [? [<- <-]]]]]; (split; [in_list | done]).
  - intros [Hin Hv]. apply required_keys_cases in Hin as [-> | [-> | ->]].
    + left. split; congruence.
    + right. split; [done|]. left. split; congruence.
    + right. split; [done|]. right. split; [done|]. split; congruence.
Qed.

(** The three required keys are present, and yet nothing is forwarded: the
    bag's own [kwargs_to_upstream] collides with the keyword [__init__]
    passes explicitly, so the call [super().__init__(kwargs_to_upstream=...,
    **kwargs)] raises [TypeError] before the base routine is entered. *)
Lemma init_reserved_key_counterexample :
  bag_reserved !! "python_callable" = Some add ∧
  bag_reserved !! "op_args" = Some (PTuple [PInt 2; PInt 3]) ∧
  bag_reserved !! "op_kwargs" = Some (PDict ∅) ∧
  _PythonDecoratedOperator.__init__ node0 bag_reserved = Raise TypeError ∧
  run sample_handle (_PythonDecoratedOperator.__init__ node0 bag_reserved) sample_world
    = (sample_world, [], inl TypeError).
Proof. repeat split; reflexivity. Qed.

(** The same happens with a key self in place of kwargs_to_upstream: the
    call of [__init__] itself is refused. *)
Lemma init_self_key_nothing_forwarded :
  bag_add_self !! "python_callable" = Some add ∧
  bag_add_self !! "op_args" = Some (PTuple [PInt 2; PInt 3]) ∧
  bag_add_self !! "op_kwargs" = Some (PDict ∅) ∧
  bag_add_self !! "kwargs_to_upstream" = None ∧
  run sample_handle (_PythonDecoratedOperator.__init__ node0 bag_add_self) sample_world
    = (sample_world, [], inl TypeError).
Proof. repeat split. Qed.

(** C3 (amended). When the three required keys are present and the bag has
    neither a key kwargs_to_upstream nor a key self, [__init__] makes one
    call, to [super().__init__], and returns [None].  The keyword bag of
    that call holds, under kwargs_to_upstream, a dict with exactly the three
    required keys, each with the value the supplied bag has for it; every
    other key of the forwarded bag is a key of the supplied bag with the
    same value, and every key of the supplied bag is forwarded. *)
Theorem init_forwards_bundle {X} (handle : call → world X → world X * (exc + pyval))
    (w : world X) (self c a k : pyval) (kwargs : bag) :
  kwargs !! "python_callable" = Some c →
  kwargs !! "op_args" = Some a →
  kwargs !! "op_kwargs" = Some k →
  kwargs !! "kwargs_to_upstream" = None →
  kwargs !! "self" = None →
  ∃ up fwd,
    _PythonDecoratedOperator.__init__ self kwargs
      = Invoke (Call (SuperInit self) [] fwd) (λ _, Ret PNone) ∧
    trace handle (_PythonDecoratedOperator.__init__ self kwargs) w
      = [ECall (Call (SuperInit self) [] fwd)] ∧
    fwd !! "kwargs_to_upstream" = Some (PDict up) ∧
    (∀ key v, up !! key = Some v ↔ key ∈ required_keys ∧ kwargs !! key = Some v) ∧
    (∀ key, key ≠ "kwargs_to_upstream" → fwd !! key = kwargs !! key).
Proof.
  intros Hc Ha Hk Hfree Hself.
  exists {[ "python_callable" := c; "op_args" := a; "op_kwargs" := k ]},
         (<["kwargs_to_upstream" := upstream c a k]> kwargs).
  assert (_PythonDecoratedOperator.__init__ self kwargs
          = Invoke (base_call self (upstream c a k) kwargs) (λ _, Ret PNone)) as Hshape.
  { rewrite init_shape, Hself, Hc, Ha, Hk.
    by apply has_key_false in Hfree as ->. }
  split; [exact Hshape|]. split; [|split; [|split]].
  - rewrite Hshape. apply (trace_one_call handle _ (λ _, PNone)).
  - apply lookup_insert_eq.
  - intros key v. by apply upstream_lookup.
  - intros key Hne. by apply lookup_insert_ne.
Qed.

Lemma init_forwards_bundle_witness :
  ∃ up fwd,
    _PythonDecoratedOperator.__init__ node0 bag_add
      = Invoke (Call (SuperInit node0) [] fwd) (λ _, Ret PNone) ∧
    trace sample_handle (_PythonDecoratedOperator.__init__ node0 bag_add) sample_world
      = [ECall (Call (SuperInit node0) [] fwd)] ∧
    fwd !! "kwargs_to_upstream" = Some (PDict up) ∧
    (∀ key v, up !! key = Some v ↔ key ∈ required_keys ∧ bag_add !! key = Some v) ∧
    (∀ key, key ≠ "kwargs_to_upstream" → fwd !! key = bag_add !! key).
Proof.
  apply (init_forwards_bundle sample_handle sample_world node0
           add (PTuple [PInt 2; PInt 3]) (PDict ∅) bag_add); reflexivity.
Defined.

(** ** The effects of construction *)

(** C8. On every keyword bag, [__init__] assigns no attribute, and the
    calls it makes are at most one, to [super().__init__] with the supplied
    bag extended by the upstream bundle; in particular no event of the run
    is an invocation of a callable held as a value, the wrapped callable
    included. *)
Theorem init_never_invokes_callable {X}
    (handle : call → world X → world X * (exc + pyval))
    (w : world X) (self : pyval) (kwargs : bag) :
  store_free (_PythonDecoratedOperator.__init__ self kwargs) ∧
  (trace handle (_PythonDecoratedOperator.__init__ self kwargs) w = [] ∨
   ∃ up, trace handle (_PythonDecoratedOperator.__init__ self kwargs) w
           = [ECall (base_call self up kwargs)]) ∧
  Forall (λ ev, ∀ f pos kws, ev ≠ ECall (Call (Value f) pos kws))
    (trace handle (_PythonDecoratedOperator.__init__ self kwargs) w).
Proof.
  rewrite init_shape.
  destruct (kwargs !! "self") as [s|];
    [by repeat split; [constructor | left | constructor]|].
  destruct (kwargs !! "python_callable") as [c|];
    [|by repeat split; [constructor | left | constructor]].
  destruct (kwargs !! "op_args") as [a|];
    [|by repeat split; [constructor | left | constructor]].
  destruct (kwargs !! "op_kwargs") as [k|];
    [|by repeat split; [constructor | left | constructor]].
  destruct (has_key kwargs "kwargs_to_upstream");
    [by repeat split; [constructor | left | constructor]|].
  rewrite (trace_one_call handle _ (λ _, PNone)).
  split; [|split].
  - constructor. intros v. constructor.
  - right. by eexists.
  - constructor; [|constructor]. intros f pos kws. unfold base_call. congruence.
Qed.

(** C9. When construction succeeds, the run made exactly one call, to
    [super().__init__], and each of the three required values is in that
    call's keyword bag twice: inside the dict under kwargs_to_upstream and
    under its own top-level key. *)
Theorem init_success_forwards_twice {X}
    (handle : call → world X → world X * (exc + pyval))
    (w : world X) (self : pyval) (kwargs : bag) (result : pyval) :
  outcome handle (_PythonDecoratedOperator.__init__ self kwargs) w = inr result →
  ∃ (up fwd : bag),
    trace handle (_PythonDecoratedOperator.__init__ self kwargs) w
      = [ECall (Call (SuperInit self) [] fwd)] ∧
    fwd !! "kwargs_to_upstream" = Some (PDict up) ∧
    ∀ key, key ∈ required_keys →
      ∃ v, kwargs !! key = Some v ∧ up !! key = Some v ∧ fwd !! key = Some v.
Proof.
  rewrite init_shape.
  destruct (kwargs !! "self") as [s|] eqn:Hs; [done|].
  destruct (kwargs !! "python_callable") as [c|] eqn:Hc; [|done].
  destruct (kwargs !! "op_args") as [a|] eqn:Ha; [|done].
  destruct (kwargs !! "op_kwargs") as [k|] eqn:Hk; [|done].
  destruct (has_key kwargs "kwargs_to_upstream") eqn:Hfree; [done|].
  intros _. rewrite (trace_one_call handle _ (λ _, PNone)).
  exists {[ "python_callable" := c; "op_args" := a; "op_kwargs" := k ]},
         (<["kwargs_to_upstream" := upstream c a k]> kwargs).
  split; [done|]. split; [apply lookup_insert_eq|].
  intros key Hin.
  apply required_keys_cases in Hin as [-> | [-> | ->]];
    [exists c | exists a | exists k];
    (split; [done|]; split; [reflexivity|]; by rewrite lookup_insert_ne).
Qed.

Lemma init_success_forwards_twice_witness :
  ∃ (up fwd : bag),
    trace sample_handle (_PythonDecoratedOperator.__init__ node0 bag_add) sample_world
      = [ECall (Call (SuperInit node0) [] fwd)] ∧
    fwd !! "kwargs_to_upstream" = Some (PDict up) ∧
    ∀ key, key ∈ required_keys →
      ∃ v, bag_add !! key = Some v ∧ up !! key = Some v ∧ fwd !! key = Some v.
Proof.
  apply (init_success_forwards_twice sample_handle sample_world node0 bag_add PNone).
  reflexivity.
Defined.

(** ** Binding the entry points' signature *)

Lemma prog_bind_ret {A B} (a : A) (f : A → prog B) : Ret a ≫= f = f a.
Proof. reflexivity. Qed.

(** Binding either fails with [TypeError] or yields the supplied values and,
    as [**kwargs], the keywords that are not parameters. *)
Lemma bind_signature_cases (args : list pyval) (kws : bag) :
  bind_signature args kws = Raise TypeError ∨
  bind_signature args kws
    = Ret (supplied "python_callable" 0 args kws,
           supplied "multiple_outputs" 1 args kws,
           delete "multiple_outputs" (delete "python_callable" kws)).
Proof.
  unfold bind_signature, bind_param, supplied.
  destruct args as [|a0 [|a1 [|a2 rest]]]; cbn.
  - right. by rewrite lookup_delete_ne.
  - destruct (kws !! "python_callable") eqn:Hc; cbn; [by left|].
    right. by rewrite (delete_id kws "python_callable").
  - destruct (kws !! "python_callable") eqn:Hc; cbn; [by left|].
    destruct (kws !! "multiple_outputs") eqn:Hm; cbn; [by left|].
    right. by rewrite (delete_id kws "python_callable"), (delete_id kws "multiple_outputs").
  - by left.
Qed.

Lemma bind_method_no_self (self : pyval) (args : list pyval) (kws : bag) :
  kws !! "self" = None →
  bind_method self args kws = bind_signature args kws.
Proof. intros Hself. unfold bind_method, bind_param. by rewrite Hself. Qed.

Lemma bind_method_self (self : pyval) (args : list pyval) (kws : bag) :
  is_Some (kws !! "self") →
  bind_method self args kws = Raise TypeError.
Proof. intros [v Hself]. unfold bind_method, bind_param. by rewrite Hself. Qed.

(** Two positional arguments bind as they are when the keywords are extra
    configuration. *)
Lemma bind_signature_positional (c m : pyval) (extra : bag) :
  free_of ["python_callable"; "multiple_outputs"] extra →
  bind_signature [c; m] extra = Ret (c, m, extra).
Proof.
  intros Hfree. unfold bind_signature, bind_param. cbn.
  rewrite (Hfree "python_callable") by in_list. cbn.
  by rewrite (Hfree "multiple_outputs") by in_list.
Qed.

(** What [**kwargs] collects never holds a parameter name. *)
Lemma collected_kwargs_free (args : list pyval) (kws : bag) (c m : pyval) (kwargs : bag) :
  bind_signature args kws = Ret (c, m, kwargs) →
  free_of ["python_callable"; "multiple_outputs"] kwargs.
Proof.
  destruct (bind_signature_cases args kws) as [-> | ->]; [done|].
  intros [= _ _ <-] n Hn.
  apply elem_of_cons in Hn as [-> | Hn].
  - rewrite lookup_delete_ne by done. apply lookup_delete_eq.
  - apply list_elem_of_singleton in Hn as ->. apply lookup_delete_eq.
Qed.

(** ** The shape of the entry points on every call *)

Lemma factory_call_lookup (c m : pyval) (extra : bag) :
  kwargs (factory_call c m extra) !! "python_callable" = Some c ∧
  kwargs (factory_call c m extra) !! "multiple_outputs" = Some m ∧
  kwargs (factory_call c m extra) !! "decorated_operator_class"
    = Some decorated_operator_class ∧
  ∀ key, key ∉ ["python_callable"; "multiple_outputs"; "decorated_operator_class"] →
    kwargs (factory_call c m extra) !! key = extra !! key.
Proof.
  unfold factory_call. cbn.
  repeat split; try (by apply lookup_union_Some_l).
  intros key Hkey. apply lookup_union_r.
  rewrite !not_elem_of_cons in Hkey. destruct Hkey as (? & ? & ? & _).
  by rewrite !lookup_insert_ne.
Qed.

Lemma call_kw_factory (c m : pyval) (kwargs : bag) :
  free_of ["python_callable"; "multiple_outputs"] kwargs →
  call_kw task_decorator_factory
    [("python_callable", c); ("multiple_outputs", m);
     ("decorated_operator_class", decorated_operator_class)] kwargs
  = if has_key kwargs "decorated_operator_class" then Raise TypeError
    else Invoke (factory_call c m kwargs) Ret.
Proof.
  intros Hfree. unfold call_kw. cbn.
  pose proof (Hfree "python_callable" ltac:(in_list)) as ->%has_key_false.
  pose proof (Hfree "multiple_outputs" ltac:(in_list)) as ->%has_key_false.
  cbn. by rewrite orb_false_r.
Qed.

Lemma python_task_shape (args : list pyval) (kws : bag) :
  python_task args kws = Raise TypeError ∨
  python_task args kws
    = Invoke (factory_call (supplied "python_callable" 0 args kws)
                           (supplied "multiple_outputs" 1 args kws)
                           (delete "multiple_outputs" (delete "python_callable" kws))) Ret.
Proof.
  unfold python_task.
  pose proof (collected_kwargs_free args kws) as Hfree.
  destruct (bind_signature_cases args kws) as [-> | Hb]; [by left|].
  rewrite Hb in Hfree |- *. cbn.
  rewrite call_kw_factory by eauto.
  destruct (has_key _ "decorated_operator_class"); [by left | by right].
Qed.

(** The mixin method is the free function, unless a keyword is named self. *)
Lemma python_is_python_task (self : pyval) (args : list pyval) (kws : bag) :
  kws !! "self" = None →
  PythonDecoratorMixin.python self args kws = python_task args kws.
Proof.
  intros Hself. unfold PythonDecoratorMixin.python, python_task.
  by rewrite bind_method_no_self.
Qed.

Lemma python_shape (self : pyval) (args : list pyval) (kws : bag) :
  PythonDecoratorMixin.python self args kws = Raise TypeError ∨
  PythonDecoratorMixin.python self args kws
    = Invoke (factory_call (supplied "python_callable" 0 args kws)
                           (supplied "multiple_outputs" 1 args kws)
                           (delete "multiple_outputs" (delete "python_callable" kws))) Ret.
Proof.
  destruct (kws !! "self") eqn:Hself.
  - left. unfold PythonDecoratorMixin.python. by rewrite bind_method_self.
  - rewrite python_is_python_task by done. apply python_task_shape.
Qed.

(** The call operator is the method [python], on every call. *)
Lemma call_is_python (self : pyval) (args : list pyval) (kws : bag) :
  PythonDecoratorMixin.__call__ self args kws
  = PythonDecoratorMixin.python self args kws.
Proof.
  unfold PythonDecoratorMixin.__call__.
  destruct (kws !! "self") eqn:Hself.
  { unfold PythonDecoratorMixin.python. by rewrite bind_method_self. }
  unfold PythonDecoratorMixin.python at 2.
  rewrite (bind_method_no_self self args kws) by done.
  pose proof (collected_kwargs_free args kws) as Hfree.
  destruct (bind_signature_cases args kws) as [-> | Hs]; [done|].
  rewrite Hs in Hfree |- *. rewrite !prog_bind_ret. cbv beta iota.
  specialize (Hfree _ _ _ eq_refl).
  unfold PythonDecoratorMixin.python.
  rewrite bind_method_no_self by by rewrite !lookup_delete_ne.
  by rewrite bind_signature_positional.
Qed.

Lemma entry_points_shape (self : pyval) (args : list pyval) (kws : bag) (p : prog pyval) :
  p ∈ entry_points self args kws →
  p = Raise TypeError ∨
  p = Invoke (factory_call (supplied "python_callable" 0 args kws)
                           (supplied "multiple_outputs" 1 args kws)
                           (delete "multiple_outputs" (delete "python_callable" kws))) Ret.
Proof.
  unfold entry_points. rewrite !elem_of_cons, elem_of_nil.
  intros [-> | [-> | [-> | []]]].
  - apply python_task_shape.
  - apply python_shape.
  - rewrite call_is_python. apply python_shape.
Qed.

(** The named parameters may as well be passed by keyword. *)
Lemma bind_signature_keywords (c m : pyval) (extra : bag) :
  free_of ["python_callable"; "multiple_outputs"] extra →
  bind_signature [] (<["python_callable" := c]> (<["multiple_outputs" := m]> extra))
  = bind_signature [c; m] extra.
Proof.
  intros Hfree. rewrite bind_signature_positional by done.
  pose proof (Hfree "python_callable" ltac:(in_list)) as Hc.
  pose proof (Hfree "multiple_outputs" ltac:(in_list)) as Hm.
  unfold bind_signature, bind_param. cbn.
  rewrite lookup_insert_eq.
  rewrite (delete_insert_id _ "python_callable") by by rewrite lookup_insert_ne.
  rewrite lookup_insert_eq.
  by rewrite delete_insert_id.
Qed.

(** ** The three entry points *)

(** An extra keyword named decorated_operator_class collides with the
    descriptor the entry points pass themselves: each of the three raises
    [TypeError] and the factory is not called, not even once. *)
Lemma entry_points_descriptor_keyword_counterexample :
  python_task [add; PBool true] extra_descriptor = Raise TypeError ∧
  PythonDecoratorMixin.python mixin0 [add; PBool true] extra_descriptor = Raise TypeError ∧
  PythonDecoratorMixin.__call__ mixin0 [add; PBool true] extra_descriptor = Raise TypeError ∧
  Forall (λ p, run sample_handle p sample_world = (sample_world, [], inl TypeError))
    (entry_points mixin0 [add; PBool true] extra_descriptor).
Proof. repeat split. repeat constructor. Qed.

(** An extra keyword named self is ordinary configuration to the free
    function, which forwards it, and a second value for the receiver to the
    mixin's methods, which raise [TypeError]. *)
Lemma self_keyword_divergence :
  python_task [add; PNone] extra_self = Invoke (factory_call add PNone extra_self) Ret ∧
  PythonDecoratorMixin.python mixin0 [add; PNone] extra_self = Raise TypeError ∧
  PythonDecoratorMixin.__call__ mixin0 [add; PNone] extra_self = Raise TypeError.
Proof. repeat split. Qed.

(** C2 (amended). For every python_callable and multiple_outputs (each
    possibly [None]) and every extra keyword configuration (keywords other
    than the two parameter names) that uses neither the keyword
    decorated_operator_class nor the keyword self, the free function, the
    mixin method and the call operator are one and the same program: a
    single call of [task_decorator_factory] with that callable, that
    multiple_outputs, the descriptor [_PythonDecoratedOperator] and the extra
    configuration, whose result is returned.  Run against any collaborator
    from any state, the three give the same state, trace and outcome. *)
Theorem entry_points_one_call {X} (handle : call → world X → world X * (exc + pyval))
    (w : world X) (self c m : pyval) (extra : bag) :
  free_of ["python_callable"; "multiple_outputs"] extra →
  free_of ["self"; "decorated_operator_class"] extra →
  python_task [c; m] extra = Invoke (factory_call c m extra) Ret ∧
  PythonDecoratorMixin.python self [c; m] extra = Invoke (factory_call c m extra) Ret ∧
  PythonDecoratorMixin.__call__ self [c; m] extra = Invoke (factory_call c m extra) Ret ∧
  Forall (λ p, run handle p w
               = ((handle (factory_call c m extra) w).1,
                  [ECall (factory_call c m extra)],
                  (handle (factory_call c m extra) w).2))
    (entry_points self [c; m] extra) ∧
  callee (factory_call c m extra) = task_decorator_factory ∧
  posargs (factory_call c m extra) = [] ∧
  kwargs (factory_call c m extra) !! "python_callable" = Some c ∧
  kwargs (factory_call c m extra) !! "multiple_outputs" = Some m ∧
  kwargs (factory_call c m extra) !! "decorated_operator_class"
    = Some decorated_operator_class ∧
  ∀ key, key ∉ ["python_callable"; "multiple_outputs"; "decorated_operator_class"] →
    kwargs (factory_call c m extra) !! key = extra !! key.
Proof.
  intros Hparams Hreserved.
  assert (python_task [c; m] extra = Invoke (factory_call c m extra) Ret) as Htask.
  { unfold python_task. rewrite bind_signature_positional, prog_bind_ret by done.
    cbv beta iota. rewrite call_kw_factory by done.
    by pose proof (Hreserved "decorated_operator_class" ltac:(in_list)) as ->%has_key_false. }
  assert (PythonDecoratorMixin.python self [c; m] extra
          = Invoke (factory_call c m extra) Ret) as Hpython.
  { rewrite python_is_python_task; [done|]. apply Hreserved. in_list. }
  split; [done|]. split; [done|]. split; [by rewrite call_is_python|].
  split.
  { unfold entry_points. rewrite call_is_python, Htask, Hpython.
    repeat constructor; apply run_call_ret. }
  split; [done|]. split; [done|]. apply factory_call_lookup.
Qed.

Lemma entry_points_one_call_witness :
  python_task [add; PBool true] extra_retries
    = Invoke (factory_call add (PBool true) extra_retries) Ret ∧
  PythonDecoratorMixin.python mixin0 [add; PBool true] extra_retries
    = Invoke (factory_call add (PBool true) extra_retries) Ret ∧
  PythonDecoratorMixin.__call__ mixin0 [add; PBool true] extra_retries
    = Invoke (factory_call add (PBool true) extra_retries) Ret ∧
  Forall (λ p, run sample_handle p sample_world
               = ((sample_handle (factory_call add (PBool true) extra_retries) sample_world).1,
                  [ECall (factory_call add (PBool true) extra_retries)],
                  (sample_handle (factory_call add (PBool true) extra_retries) sample_world).2))
    (entry_points mixin0 [add; PBool true] extra_retries) ∧
  callee (factory_call add (PBool true) extra_retries) = task_decorator_factory ∧
  posargs (factory_call add (PBool true) extra_retries) = [] ∧
  kwargs (factory_call add (PBool true) extra_retries) !! "python_callable" = Some add ∧
  kwargs (factory_call add (PBool true) extra_retries) !! "multiple_outputs"
    = Some (PBool true) ∧
  kwargs (factory_call add (PBool true) extra_retries) !! "decorated_operator_class"
    = Some decorated_operator_class ∧
  ∀ key, key ∉ ["python_callable"; "multiple_outputs"; "decorated_operator_class"] →
    kwargs (factory_call add (PBool true) extra_retries) !! key = extra_retries !! key.
Proof.
  apply (entry_points_one_call sample_handle sample_world mixin0 add (PBool true)
           extra_retries).
  - intros n Hn. apply elem_of_cons in Hn as [-> | Hn]; [reflexivity|].
    apply list_elem_of_singleton in Hn as ->. reflexivity.
  - intros n Hn. apply elem_of_cons in Hn as [-> | Hn]; [reflexivity|].
    apply list_elem_of_singleton in Hn as ->. reflexivity.
Defined.

(** ** What reaches the factory *)

Lemma bind_signature_binds (args : list pyval) (kws : bag) :
  binds args kws →
  bind_signature args kws
    = Ret (supplied "python_callable" 0 args kws,
           supplied "multiple_outputs" 1 args kws,
           delete "multiple_outputs" (delete "python_callable" kws)).
Proof.
  intros (Hlen & Hc & Hm).
  destruct (bind_signature_cases args kws) as [Hraise | Hret]; [|done].
  exfalso. revert Hraise. unfold bind_signature, bind_param.
  destruct args as [|a0 [|a1 [|a2 rest]]]; cbn in *; [done | | | lia].
  - by rewrite Hc by by eexists.
  - rewrite Hc by by eexists. cbn. by rewrite Hm by by eexists.
Qed.

Lemma bind_signature_rejects (args : list pyval) (kws : bag) :
  ¬ binds args kws → bind_signature args kws = Raise TypeError.
Proof.
  intros Hnot. destruct (bind_signature_cases args kws) as [Hraise | Hret]; [done|].
  exfalso. apply Hnot. revert Hret. unfold binds, bind_signature, bind_param.
  destruct args as [|a0 [|a1 [|a2 rest]]]; cbn; [| | |done].
  - intros _. split; [lia|]. split; by intros [? ?].
  - destruct (kws !! "python_callable") eqn:Hc; cbn; [done|].
    intros _. split; [lia|]. split; [done | by intros [? ?]].
  - destruct (kws !! "python_callable") eqn:Hc; cbn; [done|].
    destruct (kws !! "multiple_outputs") eqn:Hm; cbn; [done|].
    intros _. split; [lia|]. by split.
Qed.

(** When an entry point goes through to the factory, and when it raises
    [TypeError] itself. *)
Lemma python_task_accepts (args : list pyval) (kws : bag) :
  binds args kws →
  kws !! "decorated_operator_class" = None →
  python_task args kws
    = Invoke (factory_call (supplied "python_callable" 0 args kws)
                           (supplied "multiple_outputs" 1 args kws)
                           (delete "multiple_outputs" (delete "python_callable" kws))) Ret.
Proof.
  intros Hbinds Hfree.
  pose proof (collected_kwargs_free args kws) as Hcollected.
  unfold python_task. rewrite bind_signature_binds in Hcollected |- * by done.
  rewrite prog_bind_ret. cbv beta iota. rewrite call_kw_factory by eauto.
  assert (has_key (delete "multiple_outputs" (delete "python_callable" kws))
            "decorated_operator_class" = false) as ->; [|done].
  apply has_key_false. by rewrite !lookup_delete_ne.
Qed.

Lemma python_task_rejects (args : list pyval) (kws : bag) :
  ¬ binds args kws ∨ is_Some (kws !! "decorated_operator_class") →
  python_task args kws = Raise TypeError.
Proof.
  intros [Hnot | Hkey]; unfold python_task.
  { by rewrite bind_signature_rejects. }
  pose proof (collected_kwargs_free args kws) as Hcollected.
  destruct (bind_signature_cases args kws) as [-> | Hret]; [done|].
  rewrite Hret in Hcollected |- *. rewrite prog_bind_ret. cbv beta iota.
  rewrite call_kw_factory by eauto.
  assert (has_key (delete "multiple_outputs" (delete "python_callable" kws))
            "decorated_operator_class" = true) as ->; [|done].
  apply has_key_true. by rewrite !lookup_delete_ne.
Qed.

Lemma mixin_rejects_self (self : pyval) (args : list pyval) (kws : bag) :
  is_Some (kws !! "self") →
  PythonDecoratorMixin.python self args kws = Raise TypeError ∧
  PythonDecoratorMixin.__call__ self args kws = Raise TypeError.
Proof.
  intros Hself. rewrite call_is_python.
  unfold PythonDecoratorMixin.python. by rewrite bind_method_self.
Qed.

Section Forwarding.
Context {X : Type} (handle : call → world X → world X * (exc + pyval)).

(** On every call: each event of an entry point's run is a factory call
    with the supplied values and the descriptor, and the run has exactly
    one event unless the entry point ends in [TypeError]. *)
Lemma entry_point_calls (w : world X) (self : pyval) (args : list pyval) (kws : bag)
    (p : prog pyval) :
  p ∈ entry_points self args kws →
  (∀ ev, ev ∈ trace handle p w →
     ∃ c, ev = ECall c ∧
       callee c = task_decorator_factory ∧
       kwargs c !! "python_callable" = Some (supplied "python_callable" 0 args kws) ∧
       kwargs c !! "multiple_outputs" = Some (supplied "multiple_outputs" 1 args kws) ∧
       kwargs c !! "decorated_operator_class" = Some decorated_operator_class) ∧
  (outcome handle p w ≠ inl TypeError → ∃ c, trace handle p w = [ECall c]).
Proof.
  intros [-> | ->]%entry_points_shape.
  - split; [by intros ev ?%elem_of_nil | done].
  - rewrite trace_call_ret. split; [|by eexists].
    intros ev ->%list_elem_of_singleton. eexists. split; [done|].
    split; [done|]. pose proof (factory_call_lookup
      (supplied "python_callable" 0 args kws)
      (supplied "multiple_outputs" 1 args kws)
      (delete "multiple_outputs" (delete "python_callable" kws))) as (? & ? & ? & _).
    done.
Qed.

Lemma entry_point_accepts (self : pyval) (args : list pyval) (kws : bag)
    (p : prog pyval) :
  p ∈ entry_points self args kws →
  binds args kws →
  free_of ["self"; "decorated_operator_class"] kws →
  p = Invoke (factory_call (supplied "python_callable" 0 args kws)
                           (supplied "multiple_outputs" 1 args kws)
                           (delete "multiple_outputs" (delete "python_callable" kws))) Ret.
Proof.
  intros Hp Hbinds Hfree.
  pose proof (Hfree "self" ltac:(in_list)) as Hself.
  pose proof (Hfree "decorated_operator_class" ltac:(in_list)) as Hdesc.
  revert Hp. unfold entry_points. rewrite !elem_of_cons, elem_of_nil.
  intros [-> | [-> | [-> | []]]];
    rewrite ?call_is_python, ?python_is_python_task by done;
    by apply python_task_accepts.
Qed.

End Forwarding.

(** On a call that passes the two values by keyword together with a keyword
    decorated_operator_class, the method [python] raises [TypeError]: the
    supplied values reach no one. *)
Lemma descriptor_keyword_nothing_forwarded_counterexample :
  supplied "python_callable" 0 [] call_with_descriptor = add ∧
  supplied "multiple_outputs" 1 [] call_with_descriptor = PBool true ∧
  PythonDecoratorMixin.python mixin0 [] call_with_descriptor = Raise TypeError ∧
  run sample_handle (PythonDecoratorMixin.python mixin0 [] call_with_descriptor)
    sample_world = (sample_world, [], inl TypeError).
Proof. repeat split. Qed.

(** C6 (amended). On every call that binds to the entry point's signature
    and whose keywords use neither decorated_operator_class nor self, each
    entry point makes one call, of [task_decorator_factory], carrying as
    python_callable and as multiple_outputs exactly the values it was given
    (positionally or by keyword; the declared default [None] where none was
    given), as decorated_operator_class the descriptor
    [_PythonDecoratedOperator], and the remaining keywords as they are.  On
    every call whatsoever, each call an entry point makes is such a call:
    the values are never wrapped, coerced or replaced, and the descriptor is
    never another one. *)
Theorem factory_receives_supplied_values {X}
    (handle : call → world X → world X * (exc + pyval))
    (w : world X) (self : pyval) (args : list pyval) (kws : bag) (p : prog pyval) :
  p ∈ entry_points self args kws →
  (∀ ev, ev ∈ trace handle p w →
     ∃ c, ev = ECall c ∧
       callee c = task_decorator_factory ∧
       kwargs c !! "python_callable" = Some (supplied "python_callable" 0 args kws) ∧
       kwargs c !! "multiple_outputs" = Some (supplied "multiple_outputs" 1 args kws) ∧
       kwargs c !! "decorated_operator_class" = Some decorated_operator_class) ∧
  (binds args kws →
   free_of ["self"; "decorated_operator_class"] kws →
   ∃ c, trace handle p w = [ECall c] ∧
     callee c = task_decorator_factory ∧
     posargs c = [] ∧
     kwargs c !! "python_callable" = Some (supplied "python_callable" 0 args kws) ∧
     kwargs c !! "multiple_outputs" = Some (supplied "multiple_outputs" 1 args kws) ∧
     kwargs c !! "decorated_operator_class" = Some decorated_operator_class ∧
     ∀ key, key ∉ ["python_callable"; "multiple_outputs"; "decorated_operator_class"] →
       kwargs c !! key = kws !! key).
Proof.
  intros Hp. split; [exact (proj1 (entry_point_calls handle w self args kws p Hp))|].
  intros Hbinds Hfree.
  rewrite (entry_point_accepts self args kws p Hp Hbinds Hfree), trace_call_ret.
  eexists. split; [done|]. split; [done|]. split; [done|].
  pose proof (factory_call_lookup
    (supplied "python_callable" 0 args kws)
    (supplied "multiple_outputs" 1 args kws)
    (delete "multiple_outputs" (delete "python_callable" kws))) as (? & ? & ? & Hrest).
  repeat (split; [done|]).
  intros key Hkey. rewrite Hrest by done.
  rewrite !not_elem_of_cons in Hkey. destruct Hkey as (? & ? & _).
  by rewrite !lookup_delete_ne.
Qed.

(** The call [python_task(add, multiple_outputs=True, retries=3)] is
    accepted. *)
Lemma call_flag_by_keyword_accepted :
  binds [add] call_flag_by_keyword ∧
  free_of ["self"; "decorated_operator_class"] call_flag_by_keyword.
Proof.
  split.
  - split; [simpl; lia|]. split; [intros _; reflexivity | by intros [? ?]].
  - intros n Hn. apply elem_of_cons in Hn as [-> | Hn]; [reflexivity|].
    apply list_elem_of_singleton in Hn as ->. reflexivity.
Qed.

Lemma factory_receives_supplied_values_witness :
  (∀ ev, ev ∈ trace sample_handle (python_task [add] call_flag_by_keyword) sample_world →
     ∃ c, ev = ECall c ∧
       callee c = task_decorator_factory ∧
       kwargs c !! "python_callable" = Some add ∧
       kwargs c !! "multiple_outputs" = Some (PBool true) ∧
       kwargs c !! "decorated_operator_class" = Some decorated_operator_class) ∧
  ∃ c, trace sample_handle (python_task [add] call_flag_by_keyword) sample_world
         = [ECall c] ∧
    callee c = task_decorator_factory ∧
    posargs c = [] ∧
    kwargs c !! "python_callable" = Some add ∧
    kwargs c !! "multiple_outputs" = Some (PBool true) ∧
    kwargs c !! "decorated_operator_class" = Some decorated_operator_class ∧
    ∀ key, key ∉ ["python_callable"; "multiple_outputs"; "decorated_operator_class"] →
      kwargs c !! key = call_flag_by_keyword !! key.
Proof.
  destruct (factory_receives_supplied_values sample_handle sample_world mixin0
              [add] call_flag_by_keyword (python_task [add] call_flag_by_keyword)
              (list_elem_of_here _ _)) as [Hsafe Hlive].
  split; [exact Hsafe|].
  exact (Hlive (proj1 call_flag_by_keyword_accepted)
               (proj2 call_flag_by_keyword_accepted)).
Defined.

(** The call [mixin(add, retries=3)], with the flag omitted, is accepted. *)
Lemma call_flag_omitted_accepted :
  binds [add] extra_retries ∧
  free_of ["self"; "decorated_operator_class"] extra_retries.
Proof.
  split.
  - split; [simpl; lia|]. split; [intros _; reflexivity | by intros [? ?]].
  - intros n Hn. apply elem_of_cons in Hn as [-> | Hn]; [reflexivity|].
    apply list_elem_of_singleton in Hn as ->. reflexivity.
Qed.

(** C7. When multiple_outputs is omitted in a call of an entry point (at
    most one positional argument and no keyword of that name), the value
    held for it is the declared default [None], Python's unset value, which
    is false as a truth value, and that [None] is what is forwarded: every
    call the entry point makes carries it as multiple_outputs, and on every
    such call that binds and whose keywords use neither
    decorated_operator_class nor self the entry point does make the call,
    exactly one, of [task_decorator_factory], with multiple_outputs
    [None]. *)
Theorem omitted_flag_forwarded_as_None {X}
    (handle : call → world X → world X * (exc + pyval))
    (w : world X) (self : pyval) (args : list pyval) (kws : bag) (p : prog pyval) :
  p ∈ entry_points self args kws →
  (length args ≤ 1)%nat →
  kws !! "multiple_outputs" = None →
  supplied "multiple_outputs" 1 args kws = PNone ∧
  truthy (supplied "multiple_outputs" 1 args kws) = false ∧
  (∀ c, ECall c ∈ trace handle p w → kwargs c !! "multiple_outputs" = Some PNone) ∧
  (binds args kws →
   free_of ["self"; "decorated_operator_class"] kws →
   ∃ c, p = Invoke c Ret ∧
        trace handle p w = [ECall c] ∧
        callee c = task_decorator_factory ∧
        kwargs c !! "multiple_outputs" = Some PNone).
Proof.
  intros Hp Hlen Hkw.
  assert (supplied "multiple_outputs" 1 args kws = PNone) as Hnone.
  { unfold supplied. rewrite Hkw.
    destruct args as [|a0 [|a1 rest]]; [done | done | simpl in Hlen; lia]. }
  split; [done|]. split; [by rewrite Hnone|].
  split.
  - pose proof (entry_point_calls handle w self args kws p Hp) as [Hsafe _].
    rewrite Hnone in Hsafe.
    intros c Hc. destruct (Hsafe _ Hc) as (c' & [= <-] & _ & _ & Hm & _). done.
  - intros Hbinds Hfree.
    rewrite (entry_point_accepts self args kws p Hp Hbinds Hfree), trace_call_ret.
    eexists. split; [done|]. split; [done|]. split; [done|].
    rewrite Hnone. apply factory_call_lookup.
Qed.

Lemma omitted_flag_forwarded_as_None_witness :
  supplied "multiple_outputs" 1 [add] extra_retries = PNone ∧
  truthy (supplied "multiple_outputs" 1 [add] extra_retries) = false ∧
  (∀ c, ECall c ∈ trace sample_handle
                    (PythonDecoratorMixin.__call__ mixin0 [add] extra_retries)
                    sample_world →
        kwargs c !! "multiple_outputs" = Some PNone) ∧
  ∃ c, PythonDecoratorMixin.__call__ mixin0 [add] extra_retries = Invoke c Ret ∧
       trace sample_handle (PythonDecoratorMixin.__call__ mixin0 [add] extra_retries)
         sample_world = [ECall c] ∧
       callee c = task_decorator_factory ∧
       kwargs c !! "multiple_outputs" = Some PNone.
Proof.
  destruct (omitted_flag_forwarded_as_None sample_handle sample_world mixin0
              [add] extra_retries
              (PythonDecoratorMixin.__call__ mixin0 [add] extra_retries))
    as (Hvalue & Hfalse & Hsafe & Hlive).
  - apply list_elem_of_further, list_elem_of_further, list_elem_of_here.
  - simpl. lia.
  - reflexivity.
  - split; [exact Hvalue|]. split; [exact Hfalse|]. split; [exact Hsafe|].
    exact (Hlive (proj1 call_flag_omitted_accepted)
                 (proj2 call_flag_omitted_accepted)).
Defined.

(** The omitted flag on a concrete call: the factory is called, with
    [None]. *)
Example omitted_flag_run :
  run sample_handle (python_task [add] extra_retries) sample_world
  = (World initial_heap 1,
     [ECall (factory_call add PNone extra_retries)],
     inr PNone).
Proof. reflexivity. Qed.

(** ** The class-level declarations *)

(** C4. The template-field declaration is the two names op_args and
    op_kwargs, in that order, and the rendering-hint mapping gives a tag to
    a field exactly when the field is one of those two, the tag being "py"
    (python code) in both cases. *)
Theorem template_declarations :
  _PythonDecoratedOperator.template_fields = ["op_args"; "op_kwargs"] ∧
  (∀ field, field ∈ _PythonDecoratedOperator.template_fields
            ↔ field = "op_args" ∨ field = "op_kwargs") ∧
  (∀ field tag,
     _PythonDecoratedOperator.template_fields_renderers !! field = Some tag
     ↔ field ∈ _PythonDecoratedOperator.template_fields ∧ tag = "py") ∧
  dom _PythonDecoratedOperator.template_fields_renderers
    = list_to_set _PythonDecoratedOperator.template_fields ∧
  _PythonDecoratedOperator.class_dict !! "template_fields"
    = Some (PTuple [PStr "op_args"; PStr "op_kwargs"]).
Proof.
  unfold _PythonDecoratedOperator.template_fields,
    _PythonDecoratedOperator.template_fields_renderers.
  split; [done|]. split; [|split; [|split]].
  - intros field. rewrite !elem_of_cons, elem_of_nil. tauto.
  - intros field tag.
    rewrite lookup_insert_Some, lookup_singleton_Some, !elem_of_cons, elem_of_nil.
    split.
    + intros [[<- <-] | [? [<- <-]]]; auto.
    + intros [[-> | [-> | []]] ->]; [by left | right]. by split.
  - rewrite dom_insert_L, dom_singleton_L. cbn. by rewrite (right_id_L ∅ (∪)).
  - reflexivity.
Qed.

(** C5. The shallow-copy declaration is the single name python_callable;
    neither op_args nor op_kwargs is in it. *)
Theorem shallow_copy_declaration :
  _PythonDecoratedOperator.shallow_copy_attrs = ["python_callable"] ∧
  length _PythonDecoratedOperator.shallow_copy_attrs = 1 ∧
  (∀ attr, attr ∈ _PythonDecoratedOperator.shallow_copy_attrs
           ↔ attr = "python_callable") ∧
  ("op_args" ∉ _PythonDecoratedOperator.shallow_copy_attrs) ∧
  ("op_kwargs" ∉ _PythonDecoratedOperator.shallow_copy_attrs) ∧
  _PythonDecoratedOperator.class_dict !! "shallow_copy_attrs"
    = Some (PTuple [PStr "python_callable"]).
Proof.
  unfold _PythonDecoratedOperator.shallow_copy_attrs.
  split; [done|]. split; [done|]. split; [|split; [|split]].
  - intros attr. apply list_elem_of_singleton.
  - by intros ?%list_elem_of_singleton.
  - by intros ?%list_elem_of_singleton.
  - reflexivity.
Qed.

(** ** The declarations over the lifetime of the class *)

Lemma declaration_names_cases (attr : string) :
  attr ∈ declaration_names →
  attr = "template_fields" ∨ attr = "template_fields_renderers"
  ∨ attr = "shallow_copy_attrs".
Proof. unfold declaration_names. rewrite !elem_of_cons, elem_of_nil. tauto. Qed.

Lemma initial_heap_intact : declarations_intact initial_heap.
Proof.
  intros attr Hattr. split.
  - by apply declaration_names_cases in Hattr as [-> | [-> | ->]].
  - intros addr. unfold initial_heap. by rewrite lookup_singleton_ne.
Qed.

(** An intact heap answers [node.attr], for each of the three declarations
    and every node, with what the class statement declared. *)
Lemma intact_getattr (h : gmap ref bag) (addr : nat) (attr : string) :
  declarations_intact h →
  attr ∈ declaration_names →
  getattr h (RObj addr) attr = _PythonDecoratedOperator.class_dict !! attr.
Proof.
  intros Hint Hattr. destruct (Hint attr Hattr) as [Hcls Hobj].
  unfold getattr. by rewrite Hobj.
Qed.

Section Frame.
Context {X : Type} (handle : call → world X → world X * (exc + pyval)).

(** The collaborators' side of the bargain: they do not write the three
    declarations either. *)
Hypothesis handle_frame :
  ∀ c w, declarations_intact (heap w) → declarations_intact (heap (handle c w).1).

Lemma store_free_intact {A} (p : prog A) (w : world X) :
  store_free p →
  declarations_intact (heap w) →
  declarations_intact (heap (final handle p w)).
Proof using handle_frame.
  intros Hsf. revert w.
  induction Hsf as [a | e | c k Hk IH]; intros w Hint; [done | done |].
  unfold final in *. simpl.
  pose proof (handle_frame c w Hint) as Hint'.
  destruct (handle c w) as [w1 [e | v]]; [done|].
  specialize (IH v w1 Hint').
  by destruct (run handle (k v) w1) as [[w2 tr] r].
Qed.

End Frame.

(** No operation of the module assigns an attribute. *)
Lemma op_prog_store_free (o : op) : store_free (op_prog o).
Proof.
  destruct o as [self kwargs | args kws | self args kws | self args kws]; simpl.
  - rewrite init_shape.
    repeat case_match; repeat constructor.
  - destruct (python_task_shape args kws) as [-> | ->]; repeat constructor.
  - destruct (python_shape self args kws) as [-> | ->]; repeat constructor.
  - rewrite call_is_python.
    destruct (python_shape self args kws) as [-> | ->]; repeat constructor.
Qed.

(** C10. No operation of the module (construction and the three entry
    points) contains an attribute assignment.  Hence, with collaborators
    that do not write the three declarations either, after any sequence of
    operations from a state in which the declarations are as the class
    statement left them, they still are, and every node reports, for
    [template_fields], [template_fields_renderers] and
    [shallow_copy_attrs], the declared constants. *)
Theorem declarations_never_written {X}
    (handle : call → world X → world X * (exc + pyval))
    (ops : list op) (w : world X) :
  (∀ c w, declarations_intact (heap w) → declarations_intact (heap (handle c w).1)) →
  declarations_intact (heap w) →
  Forall (λ o, store_free (op_prog o)) ops ∧
  declarations_intact (heap (run_ops handle ops w)) ∧
  ∀ addr,
    getattr (heap (run_ops handle ops w)) (RObj addr) "template_fields"
      = Some (PTuple (PStr <$> _PythonDecoratedOperator.template_fields)) ∧
    getattr (heap (run_ops handle ops w)) (RObj addr) "template_fields_renderers"
      = Some (PDict (PStr <$> _PythonDecoratedOperator.template_fields_renderers)) ∧
    getattr (heap (run_ops handle ops w)) (RObj addr) "shallow_copy_attrs"
      = Some (PTuple (PStr <$> _PythonDecoratedOperator.shallow_copy_attrs)).
Proof.
  intros Hframe Hint.
  split; [apply Forall_forall; intros; apply op_prog_store_free|].
  assert (declarations_intact (heap (run_ops handle ops w))) as Hend.
  { revert w Hint. induction ops as [|o ops IH]; intros w Hint; [done|].
    simpl. apply IH. apply store_free_intact; [done | apply op_prog_store_free | done]. }
  split; [done|]. intros addr.
  rewrite !(intact_getattr _ addr) by (done || in_list).
  done.
Qed.

(** The stand-in collaborator keeps its side: it writes, on the node, only
    the three captured names. *)
Lemma publish_lookup_other (up attrs : bag) (attr : string) :
  attr ∉ required_keys →
  publish up attrs !! attr = attrs !! attr.
Proof.
  unfold required_keys. rewrite !not_elem_of_cons. intros (? & ? & ? & _).
  unfold publish. simpl.
  repeat case_match; by rewrite ?lookup_insert_ne.
Qed.

Lemma sample_handle_frame (c : call) (w : world nat) :
  declarations_intact (heap w) →
  declarations_intact (heap (sample_handle c w).1).
Proof.
  intros Hint. unfold sample_handle.
  destruct (callee c) as [[| | | | | | |[| |addr]]| |]; try done.
  destruct (kwargs c !! "kwargs_to_upstream") as [[| | | | | |up|]|]; try done.
  simpl. intros attr Hattr. destruct (Hint attr Hattr) as [Hcls Hobj].
  split; [by rewrite lookup_insert_ne|].
  intros addr'. destruct (decide (addr' = addr)) as [-> | Hne].
  - rewrite lookup_insert_eq. simpl. rewrite publish_lookup_other.
    + specialize (Hobj addr). by destruct (heap w !! RObj addr).
    + apply declaration_names_cases in Hattr as [-> | [-> | ->]];
        unfold required_keys; rewrite !not_elem_of_cons;
        repeat split; (done || apply not_elem_of_nil).
  - rewrite lookup_insert_ne by congruence. apply Hobj.
Qed.

Lemma declarations_never_written_witness :
  Forall (λ o, store_free (op_prog o)) session ∧
  declarations_intact (heap (run_ops sample_handle session sample_world)) ∧
  ∀ addr,
    getattr (heap (run_ops sample_handle session sample_world)) (RObj addr)
      "template_fields"
      = Some (PTuple (PStr <$> _PythonDecoratedOperator.template_fields)) ∧
    getattr (heap (run_ops sample_handle session sample_world)) (RObj addr)
      "template_fields_renderers"
      = Some (PDict (PStr <$> _PythonDecoratedOperator.template_fields_renderers)) ∧
    getattr (heap (run_ops sample_handle session sample_world)) (RObj addr)
      "shallow_copy_attrs"
      = Some (PTuple (PStr <$> _PythonDecoratedOperator.shallow_copy_attrs)).
Proof.
  apply (declarations_never_written sample_handle session sample_world).
  - exact sample_handle_frame.
  - exact initial_heap_intact.
Defined.

(** The session on the stand-in: the one successful construction published
    the captured values on its node, the declarations are in place, and the
    collaborators were called four times. *)
Example session_run :
  getattr (heap (run_ops sample_handle session sample_world)) (RObj 0) "op_args"
    = Some (PTuple [PInt 2; PInt 3]) ∧
  getattr (heap (run_ops sample_handle session sample_world)) (RObj 0) "template_fields"
    = Some (PTuple [PStr "op_args"; PStr "op_kwargs"]) ∧
  getattr (heap (run_ops sample_handle session sample_world)) (RObj 2) "op_args" = None ∧
  ext (run_ops sample_handle session sample_world) = 4.
Proof. repeat split; vm_compute; reflexivity. Qed.


(** ** Further properties: the entry points against each other *)

(** X1. The call operator of the mixin is its method [python] on every call
    whatsoever, the rejected ones included: the same program, hence the same
    state, trace and outcome against any collaborator. *)
Theorem call_operator_is_python_method {X}
    (handle : call → world X → world X * (exc + pyval))
    (w : world X) (self : pyval) (args : list pyval) (kws : bag) :
  PythonDecoratorMixin.__call__ self args kws
    = PythonDecoratorMixin.python self args kws ∧
  run handle (PythonDecoratorMixin.__call__ self args kws) w
    = run handle (PythonDecoratorMixin.python self args kws) w.
Proof. split; by rewrite call_is_python. Qed.

(** X2. On every call without a keyword named self, the mixin's method and
    its call operator are the free function [python_task]: the same program,
    hence the same state, trace and outcome against any collaborator. *)
Theorem mixin_is_free_function {X}
    (handle : call → world X → world X * (exc + pyval))
    (w : world X) (self : pyval) (args : list pyval) (kws : bag) :
  kws !! "self" = None →
  PythonDecoratorMixin.python self args kws = python_task args kws ∧
  PythonDecoratorMixin.__call__ self args kws = python_task args kws ∧
  run handle (PythonDecoratorMixin.python self args kws) w
    = run handle (python_task args kws) w ∧
  run handle (PythonDecoratorMixin.__call__ self args kws) w
    = run handle (python_task args kws) w.
Proof.
  intros Hself.
  by rewrite call_is_python, python_is_python_task.
Qed.

Lemma mixin_is_free_function_witness :
  PythonDecoratorMixin.python mixin0 [] call_by_keyword
    = python_task [] call_by_keyword ∧
  PythonDecoratorMixin.__call__ mixin0 [] call_by_keyword
    = python_task [] call_by_keyword ∧
  run sample_handle (PythonDecoratorMixin.python mixin0 [] call_by_keyword) sample_world
    = run sample_handle (python_task [] call_by_keyword) sample_world ∧
  run sample_handle (PythonDecoratorMixin.__call__ mixin0 [] call_by_keyword) sample_world
    = run sample_handle (python_task [] call_by_keyword) sample_world.
Proof.
  apply (mixin_is_free_function sample_handle sample_world mixin0 [] call_by_keyword).
  reflexivity.
Defined.

(** X3. A keyword named self separates the entry points.  The mixin's
    method and call operator take it as a second value for their receiver
    and raise [TypeError]: no call, state unchanged.  The free function, on
    a call that binds and has no keyword decorated_operator_class, forwards
    it to [task_decorator_factory] like any other keyword. *)
Theorem self_keyword_separates {X}
    (handle : call → world X → world X * (exc + pyval))
    (w : world X) (self v : pyval) (args : list pyval) (kws : bag) :
  kws !! "self" = Some v →
  run handle (PythonDecoratorMixin.python self args kws) w = (w, [], inl TypeError) ∧
  run handle (PythonDecoratorMixin.__call__ self args kws) w = (w, [], inl TypeError) ∧
  (binds args kws →
   kws !! "decorated_operator_class" = None →
   ∃ c, trace handle (python_task args kws) w = [ECall c] ∧
        callee c = task_decorator_factory ∧
        kwargs c !! "self" = Some v).
Proof.
  intros Hself.
  destruct (mixin_rejects_self self args kws) as [-> ->]; [by eexists|].
  split; [done|]. split; [done|].
  intros Hbinds Hdesc. rewrite python_task_accepts, trace_call_ret by done.
  eexists. split; [done|]. split; [done|].
  destruct (factory_call_lookup
    (supplied "python_callable" 0 args kws)
    (supplied "multiple_outputs" 1 args kws)
    (delete "multiple_outputs" (delete "python_callable" kws))) as (_ & _ & _ & Hrest).
  rewrite Hrest.
  - by rewrite !lookup_delete_ne.
  - rewrite !not_elem_of_cons. repeat split; (done || apply not_elem_of_nil).
Qed.

Lemma self_keyword_separates_witness :
  run sample_handle (PythonDecoratorMixin.python mixin0 [add] extra_self) sample_world
    = (sample_world, [], inl TypeError) ∧
  run sample_handle (PythonDecoratorMixin.__call__ mixin0 [add] extra_self) sample_world
    = (sample_world, [], inl TypeError) ∧
  ∃ c, trace sample_handle (python_task [add] extra_self) sample_world = [ECall c] ∧
       callee c = task_decorator_factory ∧
       kwargs c !! "self" = Some (PInt 1).
Proof.
  destruct (self_keyword_separates sample_handle sample_world mixin0 (PInt 1)
              [add] extra_self eq_refl) as (Hpython & Hcall & Hfree).
  split; [exact Hpython|]. split; [exact Hcall|].
  apply Hfree; [|reflexivity].
  split; [simpl; lia|]. split; [intros _; reflexivity | by intros [? ?]].
Defined.

(** ** Further properties: when the module itself raises *)

(** X4. The free function raises [TypeError] itself, before any call,
    exactly on the calls that do not bind to its signature (more than two
    positional arguments, or a parameter given both positionally and by
    keyword) or that carry a keyword decorated_operator_class. *)
Theorem python_task_type_error_iff (args : list pyval) (kws : bag) :
  python_task args kws = Raise TypeError
  ↔ ¬ binds args kws ∨ is_Some (kws !! "decorated_operator_class").
Proof.
  split; [|apply python_task_rejects].
  intros Hraise. destruct (kws !! "decorated_operator_class") eqn:Hdesc.
  - right. by eexists.
  - left. intros Hbinds. by rewrite python_task_accepts in Hraise.
Qed.

(** X5. The mixin's method and call operator raise [TypeError]
    themselves, before any call, exactly on the calls that do not bind, or
    carry a keyword decorated_operator_class, or carry a keyword self. *)
Theorem mixin_type_error_iff (self : pyval) (args : list pyval) (kws : bag) :
  (PythonDecoratorMixin.python self args kws = Raise TypeError
   ↔ ¬ binds args kws ∨ is_Some (kws !! "decorated_operator_class")
     ∨ is_Some (kws !! "self")) ∧
  (PythonDecoratorMixin.__call__ self args kws = Raise TypeError
   ↔ ¬ binds args kws ∨ is_Some (kws !! "decorated_operator_class")
     ∨ is_Some (kws !! "self")).
Proof.
  rewrite call_is_python.
  assert (PythonDecoratorMixin.python self args kws = Raise TypeError
          ↔ ¬ binds args kws ∨ is_Some (kws !! "decorated_operator_class")
            ∨ is_Some (kws !! "self")) as Hiff; [|done].
  destruct (kws !! "self") as [v|] eqn:Hself.
  - split; [intros _; right; right; by eexists|].
    intros _. apply mixin_rejects_self. rewrite Hself. by eexists.
  - rewrite python_is_python_task by done. split.
    + intros Hraise. destruct (kws !! "decorated_operator_class") eqn:Hdesc.
      * right. left. by eexists.
      * left. intros Hbinds. by rewrite python_task_accepts in Hraise.
    + intros [Hnot | [Hdesc | [? [=]]]]; apply python_task_rejects; auto.
Qed.

(** X6. Construction raises [KeyError] for a key exactly when the bag has
    no key self and that key is the first of python_callable, op_args,
    op_kwargs, in this order, that the bag lacks; whether the bag carries
    kwargs_to_upstream plays no part. *)
Theorem init_key_error_iff (self : pyval) (kwargs : bag) (key : string) :
  _PythonDecoratedOperator.__init__ self kwargs = Raise (KeyError key)
  ↔ kwargs !! "self" = None ∧
    ∃ before after,
      required_keys = (before ++ key :: after)%list ∧
      Forall (λ k, is_Some (kwargs !! k)) before ∧
      kwargs !! key = None.
Proof.
  split.
  - intros Hraise. split.
    + destruct (kwargs !! "self") as [s|] eqn:Hs; [|done].
      by rewrite init_rejects_self in Hraise by by eexists.
    + apply init_reports_first_missing in Hraise
        as (before & after & ? & ? & ?). eauto.
  - intros (Hself & before & after & Hsplit & Hbefore & Hnone).
    rewrite init_shape, Hself. unfold required_keys in Hsplit.
    destruct before as [|b1 [|b2 [|b3 rest]]]; simplify_eq/=.
    + by rewrite Hnone.
    + apply Forall_cons in Hbefore as [[c ->] _]. by rewrite Hnone.
    + apply Forall_cons in Hbefore as [[c ->] [[a ->] _]%Forall_cons].
      by rewrite Hnone.
    + by destruct rest.
Qed.

(** X7. Construction raises [TypeError] itself exactly when the bag has a
    key self, or has all three required keys and also a key
    kwargs_to_upstream. *)
Theorem init_type_error_iff (self : pyval) (kwargs : bag) :
  _PythonDecoratedOperator.__init__ self kwargs = Raise TypeError
  ↔ is_Some (kwargs !! "self")
    ∨ (Forall (λ k, is_Some (kwargs !! k)) required_keys
       ∧ is_Some (kwargs !! "kwargs_to_upstream")).
Proof.
  rewrite init_shape. unfold required_keys.
  rewrite !Forall_cons, <-(has_key_true kwargs "kwargs_to_upstream").
  pose proof (@is_Some_None pyval) as Hnone.
  destruct (kwargs !! "self") as [s|]; [split; [left; by eexists | done]|].
  destruct (kwargs !! "python_callable") as [c|]; [|by intuition].
  destruct (kwargs !! "op_args") as [a|]; [|by intuition].
  destruct (kwargs !! "op_kwargs") as [k|]; [|by intuition].
  destruct (has_key kwargs "kwargs_to_upstream").
  - split; [|done]. intros _. right. repeat split; (by eexists) || by constructor.
  - split; [done | by intros [? | [_ ?]]].
Qed.

(** ** Further properties: what comes back *)

Section Outcomes.
Context {X : Type} (handle : call → world X → world X * (exc + pyval)).

Lemma run_one_call {A} c (f : pyval → A) (w : world X) :
  run handle (Invoke c (λ v, Ret (f v))) w
  = ((handle c w).1, [ECall c], sum_map id f (handle c w).2).
Proof. simpl. destruct (handle c w) as [w1 [e|v]]; reflexivity. Qed.

End Outcomes.

(** X8. When the three required keys are present and the bag has neither
    a key kwargs_to_upstream nor a key self, construction ends as its one
    call of [super().__init__] ends: in the state the base routine leaves,
    with the base routine's exception if it raises one, and with [None] if
    it returns, whatever it returns. *)
Theorem init_outcome_is_base_outcome {X}
    (handle : call → world X → world X * (exc + pyval))
    (w : world X) (self c a k : pyval) (kwargs : bag) :
  kwargs !! "python_callable" = Some c →
  kwargs !! "op_args" = Some a →
  kwargs !! "op_kwargs" = Some k →
  kwargs !! "kwargs_to_upstream" = None →
  kwargs !! "self" = None →
  final handle (_PythonDecoratedOperator.__init__ self kwargs) w
    = (handle (base_call self (upstream c a k) kwargs) w).1 ∧
  outcome handle (_PythonDecoratedOperator.__init__ self kwargs) w
    = match (handle (base_call self (upstream c a k) kwargs) w).2 with
      | inl e => inl e
      | inr _ => inr PNone
      end.
Proof.
  intros Hc Ha Hk Hfree Hself. unfold final, outcome.
  rewrite init_shape, Hself, Hc, Ha, Hk.
  apply has_key_false in Hfree as ->.
  rewrite (run_one_call handle _ (λ _, PNone)). split; [done|].
  simpl. by destruct (handle _ w).2.
Qed.

Lemma init_outcome_is_base_outcome_witness :
  final counting_handle (_PythonDecoratedOperator.__init__ node0 bag_add) sample_world
    = (counting_handle
         (base_call node0 (upstream add (PTuple [PInt 2; PInt 3]) (PDict ∅)) bag_add)
         sample_world).1 ∧
  outcome counting_handle (_PythonDecoratedOperator.__init__ node0 bag_add) sample_world
    = match (counting_handle
               (base_call node0 (upstream add (PTuple [PInt 2; PInt 3]) (PDict ∅)) bag_add)
               sample_world).2 with
      | inl e => inl e
      | inr _ => inr PNone
      end.
Proof.
  apply (init_outcome_is_base_outcome counting_handle sample_world node0
           add (PTuple [PInt 2; PInt 3]) (PDict ∅) bag_add); reflexivity.
Defined.

(** The same construction against a base routine that returns a number,
    and against one that raises. *)
Example init_drops_result_and_propagates :
  outcome counting_handle (_PythonDecoratedOperator.__init__ node0 bag_add) sample_world
    = inr PNone ∧
  outcome raising_handle (_PythonDecoratedOperator.__init__ node0 bag_add) sample_world
    = inl (Other "AirflowException").
Proof. split; reflexivity. Qed.

(** X9. On every call that binds and whose keywords use neither
    decorated_operator_class nor self, each entry point ends as its one
    call of [task_decorator_factory] ends: in the state the factory leaves,
    with the factory's exception if it raises one, and with the very value
    the factory returns otherwise. *)
Theorem entry_point_outcome_is_factory_outcome {X}
    (handle : call → world X → world X * (exc + pyval))
    (w : world X) (self : pyval) (args : list pyval) (kws : bag) (p : prog pyval) :
  p ∈ entry_points self args kws →
  binds args kws →
  free_of ["self"; "decorated_operator_class"] kws →
  run handle p w
  = handle_result handle w
      (factory_call (supplied "python_callable" 0 args kws)
                    (supplied "multiple_outputs" 1 args kws)
                    (delete "multiple_outputs" (delete "python_callable" kws))).
Proof.
  intros Hp Hbinds Hfree.
  rewrite (entry_point_accepts self args kws p Hp Hbinds Hfree).
  apply run_call_ret.
Qed.

Lemma entry_point_outcome_is_factory_outcome_witness :
  run counting_handle (PythonDecoratorMixin.python mixin0 [] call_by_keyword) sample_world
  = handle_result counting_handle sample_world
      (factory_call add (PBool true) extra_retries).
Proof.
  apply (entry_point_outcome_is_factory_outcome counting_handle sample_world mixin0
           [] call_by_keyword (PythonDecoratorMixin.python mixin0 [] call_by_keyword)).
  - apply list_elem_of_further, list_elem_of_here.
  - split; [simpl; lia|]. split; by intros [? ?].
  - intros n Hn. apply elem_of_cons in Hn as [-> | Hn]; [reflexivity|].
    apply list_elem_of_singleton in Hn as ->. reflexivity.
Defined.

(** The value comes back as the factory gave it. *)
Example entry_point_returns_factory_value :
  run counting_handle (PythonDecoratorMixin.python mixin0 [] call_by_keyword) sample_world
  = (World initial_heap 1,
     [ECall (factory_call add (PBool true) extra_retries)],
     inr (PInt 0)).
Proof. reflexivity. Qed.

(** ** Further properties: the style of the call *)

Lemma python_task_binds (args : list pyval) (kws : bag) :
  binds args kws →
  python_task args kws
  = call_kw task_decorator_factory
      [("python_callable", supplied "python_callable" 0 args kws);
       ("multiple_outputs", supplied "multiple_outputs" 1 args kws);
       ("decorated_operator_class", decorated_operator_class)]
      (delete "multiple_outputs" (delete "python_callable" kws)).
Proof.
  intros Hbinds. unfold python_task. by rewrite bind_signature_binds.
Qed.

(** X10. How the two parameters are passed makes no difference: two calls
    that bind, give python_callable the same value and multiple_outputs the
    same value (each positionally, by keyword, or by omission taken as
    [None]), and carry the same further keywords, are the same program at
    each of the three entry points. *)
Theorem call_style_makes_no_difference (self : pyval)
    (args args' : list pyval) (kws kws' : bag) :
  binds args kws →
  binds args' kws' →
  supplied "python_callable" 0 args kws = supplied "python_callable" 0 args' kws' →
  supplied "multiple_outputs" 1 args kws = supplied "multiple_outputs" 1 args' kws' →
  delete "multiple_outputs" (delete "python_callable" kws)
    = delete "multiple_outputs" (delete "python_callable" kws') →
  python_task args kws = python_task args' kws' ∧
  PythonDecoratorMixin.python self args kws
    = PythonDecoratorMixin.python self args' kws' ∧
  PythonDecoratorMixin.__call__ self args kws
    = PythonDecoratorMixin.__call__ self args' kws'.
Proof.
  intros Hbinds Hbinds' Hc Hm Hrest.
  assert (python_task args kws = python_task args' kws') as Htask.
  { rewrite !python_task_binds by done. by rewrite Hc, Hm, Hrest. }
  assert (kws !! "self" = kws' !! "self") as Hself.
  { transitivity (delete "multiple_outputs" (delete "python_callable" kws) !! "self").
    - by rewrite !lookup_delete_ne.
    - rewrite Hrest. by rewrite !lookup_delete_ne. }
  assert (PythonDecoratorMixin.python self args kws
          = PythonDecoratorMixin.python self args' kws') as Hpython.
  { destruct (kws !! "self") as [v|] eqn:Hv.
    - destruct (mixin_rejects_self self args kws) as [-> _]; [by rewrite Hv|].
      destruct (mixin_rejects_self self args' kws') as [-> _]; [by rewrite <-Hself|].
      done.
    - by rewrite !python_is_python_task. }
  split; [done|]. split; [done|]. by rewrite !call_is_python.
Qed.

Lemma call_style_makes_no_difference_witness :
  python_task [add; PBool true] extra_retries = python_task [] call_by_keyword ∧
  PythonDecoratorMixin.python mixin0 [add; PBool true] extra_retries
    = PythonDecoratorMixin.python mixin0 [] call_by_keyword ∧
  PythonDecoratorMixin.__call__ mixin0 [add; PBool true] extra_retries
    = PythonDecoratorMixin.__call__ mixin0 [] call_by_keyword.
Proof.
  apply (call_style_makes_no_difference mixin0
           [add; PBool true] [] extra_retries call_by_keyword).
  - split; [simpl; lia|]. split; intros _; reflexivity.
  - split; [simpl; lia|]. split; by intros [? ?].
  - reflexivity.
  - reflexivity.
  - reflexivity.
Defined.

(** Passing [None] for both parameters is passing nothing. *)
Example explicit_None_is_omission :
  python_task [PNone; PNone] extra_retries = python_task [] extra_retries ∧
  python_task [] (<["multiple_outputs" := PNone]> extra_retries)
    = python_task [] extra_retries.
Proof. split; reflexivity. Qed.

(** ** Further properties: one call at most *)

(** X11. Every operation of the module, on every input and against any
    collaborator, either stops on its own before calling anyone, leaving
    the state as it was (with [TypeError], or, for construction only, with
    [KeyError] for a required key), or makes exactly one call, with keyword
    arguments only, and leaves the state that call left: construction calls
    [super().__init__] on the node under construction, the entry points
    call [task_decorator_factory]. *)
Theorem operation_calls_at_most_once {X}
    (handle : call → world X → world X * (exc + pyval))
    (w : world X) (o : op) :
  run handle (op_prog o) w = (w, [], inl TypeError) ∨
  (∃ self kwargs key,
     o = Construct self kwargs ∧ key ∈ required_keys ∧
     run handle (op_prog o) w = (w, [], inl (KeyError key))) ∨
  (∃ c,
     trace handle (op_prog o) w = [ECall c] ∧
     final handle (op_prog o) w = (handle c w).1 ∧
     posargs c = [] ∧
     callee c = match o with
                | Construct self _ => SuperInit self
                | _ => task_decorator_factory
                end).
Proof.
  assert (∀ p args kws,
    p = Raise TypeError ∨
    p = Invoke (factory_call (supplied "python_callable" 0 args kws)
                             (supplied "multiple_outputs" 1 args kws)
                             (delete "multiple_outputs" (delete "python_callable" kws)))
               Ret →
    run handle p w = (w, [], inl TypeError) ∨
    ∃ c, trace handle p w = [ECall c] ∧ final handle p w = (handle c w).1 ∧
         posargs c = [] ∧ callee c = task_decorator_factory) as Hentry.
  { intros p args kws [-> | ->]; [by left|]. right.
    unfold trace, final. rewrite run_call_ret. by eexists. }
  destruct o as [self kwargs | args kws | self args kws | self args kws]; simpl.
  - rewrite init_shape.
    destruct (kwargs !! "self") as [s|]; [by left|].
    destruct (kwargs !! "python_callable") as [c|].
    2:{ right; left. exists self, kwargs, "python_callable". repeat split. in_list. }
    destruct (kwargs !! "op_args") as [a|].
    2:{ right; left. exists self, kwargs, "op_args". repeat split. in_list. }
    destruct (kwargs !! "op_kwargs") as [k|].
    2:{ right; left. exists self, kwargs, "op_kwargs". repeat split. in_list. }
    destruct (has_key kwargs "kwargs_to_upstream"); [by left|].
    right; right. unfold trace, final.
    rewrite (run_one_call handle _ (λ _, PNone)). by eexists.
  - destruct (Hentry _ _ _ (python_task_shape args kws)) as [?|?]; auto.
  - destruct (Hentry _ _ _ (python_shape self args kws)) as [?|?]; auto.
  - rewrite call_is_python.
    destruct (Hentry _ _ _ (python_shape self args kws)) as [?|?]; auto.
Qed.

(** ** Further properties: no validation of values *)

Lemma is_Some_agree {A} (o o' : option A) :
  (is_Some o ↔ is_Some o') →
  match o, o' with Some _, Some _ | None, None => True | _, _ => False end.
Proof.
  destruct o, o'; intros [H1 H2]; try done.
  - by destruct H1 as [? ?]; [eexists|].
  - by destruct H2 as [? ?]; [eexists|].
Qed.

(** X12. Construction looks at which keys the bag has, never at the values
    under them: on two bags with the same keys it raises the same error of
    its own, or none on both. *)
Theorem init_checks_keys_only (self self' : pyval) (kwargs kwargs' : bag) (e : exc) :
  dom kwargs = dom kwargs' →
  _PythonDecoratedOperator.__init__ self kwargs = Raise e
  ↔ _PythonDecoratedOperator.__init__ self' kwargs' = Raise e.
Proof.
  intros Hdom.
  assert (∀ key, is_Some (kwargs !! key) ↔ is_Some (kwargs' !! key)) as Hsame.
  { intros key. by rewrite <-!elem_of_dom, Hdom. }
  pose proof (is_Some_agree _ _ (Hsame "python_callable")) as Hc.
  pose proof (is_Some_agree _ _ (Hsame "op_args")) as Ha.
  pose proof (is_Some_agree _ _ (Hsame "op_kwargs")) as Hk.
  pose proof (is_Some_agree _ _ (Hsame "kwargs_to_upstream")) as Hr.
  pose proof (is_Some_agree _ _ (Hsame "self")) as Hs.
  rewrite !init_shape. unfold has_key.
  destruct (kwargs !! "self"), (kwargs' !! "self"); try done.
  destruct (kwargs !! "python_callable"), (kwargs' !! "python_callable"); try done.
  destruct (kwargs !! "op_args"), (kwargs' !! "op_args"); try done.
  destruct (kwargs !! "op_kwargs"), (kwargs' !! "op_kwargs"); try done.
  by destruct (kwargs !! "kwargs_to_upstream"), (kwargs' !! "kwargs_to_upstream").
Qed.

Lemma bag_unchecked_dom : dom bag_reserved = dom bag_unchecked.
Proof. unfold bag_reserved, bag_unchecked. by rewrite !dom_insert_L, !dom_singleton_L. Qed.

Lemma init_checks_keys_only_witness :
  _PythonDecoratedOperator.__init__ node0 bag_reserved = Raise TypeError
  ↔ _PythonDecoratedOperator.__init__ mixin0 bag_unchecked = Raise TypeError.
Proof.
  exact (init_checks_keys_only node0 mixin0 bag_reserved bag_unchecked TypeError
           bag_unchecked_dom).
Defined.

(** Values that are no callable, no sequence and no mapping pass
    construction and reach the base routine as they are. *)
Example init_forwards_unchecked_values :
  run counting_handle (_PythonDecoratedOperator.__init__ node0 bag_odd_values) sample_world
  = (World initial_heap 1,
     [ECall (base_call node0 (upstream PNone (PInt 7) (PStr "x")) bag_odd_values)],
     inr PNone).
Proof. reflexivity. Qed.
